(** * The Bing retriever of gpt-researcher: model and properties

    Source: [gpt_researcher/retrievers/bing/bing.py], class [BingSearch].

    The retriever talks to a remote agent service through the Azure SDK.
    The SDK is not part of the repository, so every SDK call is answered
    by an oracle ([Remote], [Sdk]) that either yields a value or raises;
    the retriever's own code is embedded as it is written, and every
    theorem quantifies over the oracles. *)

From Stdlib Require Import String Ascii List ZArith Bool Lia.
Import ListNotations.
Local Open Scope string_scope.

(* ================================================================== *)
(** ** Python values, as far as [bing.py] inspects them *)
(* ================================================================== *)

Module Py.

(** The response objects are probed with [getattr]/[hasattr], so they
    are kept untyped: an instance is a class name with an attribute
    table.  [PyDict] is a dict with string keys in insertion order (the
    shape of the retriever's output).  [PyMethod] is a bound method of a
    builtin value; it only arises as [str.title]. *)
#[local] Set Warnings "-register-all".
Inductive value : Type :=
| PyNone
| PyBool (b : bool)
| PyInt (n : Z)
| PyStr (s : string)
| PyList (xs : list value)
| PyDict (items : list (string * value))
| PyObj (cls : string) (attrs : list (string * value))
| PyMethod (self : value) (name : string).

(** First binding of a key in an association list. *)
Fixpoint assoc (k : string) (kvs : list (string * value)) : option value :=
  match kvs with
  | [] => None
  | (k', v) :: rest => if String.eqb k k' then Some v else assoc k rest
  end.

(** Attribute lookup.  Among the names [bing.py] probes (role, text,
    value, annotations, type, start_index, end_index, url_citation, url,
    title) the builtin types carry exactly one: [str.title]. *)
Definition lookup_attr (v : value) (name : string) : option value :=
  match v with
  | PyObj _ attrs => assoc name attrs
  | PyStr _ => if String.eqb name "title" then Some (PyMethod v name) else None
  | _ => None
  end.

(** [hasattr(v, name)] *)
Definition hasattr (v : value) (name : string) : bool :=
  match lookup_attr v name with Some _ => true | None => false end.

(** [getattr(v, name, default)] *)
Definition getattr (v : value) (name : string) (default : value) : value :=
  match lookup_attr v name with Some x => x | None => default end.

(** Truth value of [v], as [if v:] and [v or w] test it. *)
Definition truthy (v : value) : bool :=
  match v with
  | PyNone => false
  | PyBool b => b
  | PyInt n => negb (Z.eqb n 0)
  | PyStr s => negb (String.eqb s "")
  | PyList xs => match xs with [] => false | _ => true end
  | PyDict items => match items with [] => false | _ => true end
  | PyObj _ _ => true
  | PyMethod _ _ => true
  end.

(** [v == s] for a string literal [s]: only an equal string is equal. *)
Definition eq_str (v : value) (s : string) : bool :=
  match v with
  | PyStr s' => String.eqb s' s
  | _ => false
  end.

(** [type(v).__name__], as it appears in a TypeError message. *)
Definition type_name (v : value) : string :=
  match v with
  | PyNone => "NoneType"
  | PyBool _ => "bool"
  | PyInt _ => "int"
  | PyStr _ => "str"
  | PyList _ => "list"
  | PyDict _ => "dict"
  | PyObj cls _ => cls
  | PyMethod _ _ => "builtin_function_or_method"
  end.

(** The characters of a string, each as a one-character string. *)
Fixpoint chars (s : string) : list value :=
  match s with
  | EmptyString => []
  | String c rest => PyStr (String c EmptyString) :: chars rest
  end.

(** The items [for x in v] runs over; [None] when [v] is not iterable
    (the loop then raises TypeError).  A dict iterates over its keys. *)
Definition iter (v : value) : option (list value) :=
  match v with
  | PyList xs => Some xs
  | PyStr s => Some (chars s)
  | PyDict items => Some (map (fun kv => PyStr (fst kv)) items)
  | _ => None
  end.

End Py.
Import Py.

(* ================================================================== *)
(** ** Exceptions, events and the control monad *)
(* ================================================================== *)

(** An instance of [Exception]: its class and what [str(e)] prints.
    Both handlers of [search] are [except Exception]. *)
Record exn : Type := MkExn { exn_class : string; exn_str : string }.

(** What a call into the SDK does: return or raise. *)
Inductive result (A : Type) : Type :=
| Ok (a : A)
| Exc (e : exn).
Arguments Ok {A} a.
Arguments Exc {A} e.

(** [tools=self.bing_tool.definitions] *)
Record BingGroundingTool : Type := MkTool { connection_id : string }.

(** The keyword arguments of [create_agent]. *)
Record agent_config : Type := MkAgentConfig {
  cfg_model : string;
  cfg_name : string;
  cfg_instructions : string;
  cfg_tools : BingGroundingTool;
  cfg_headers : list (string * string)
}.

Record Agent : Type := MkAgent { agent_id : string }.
Record Thread : Type := MkThread { thread_id : string }.
(** [run_last_error] is [run.last_error] as the f-string prints it. *)
Record Run : Type := MkRun { run_status : string; run_last_error : string }.

(** The requests [search] sends through the client. *)
Inductive request : Type :=
| ClientEnter
| ClientExit
| CreateAgent (cfg : agent_config)
| CreateThread
| CreateMessage (thread role content : string)
| CreateAndProcessRun (thread agent : string)
| ListMessages (thread : string)
| DeleteAgent (agent : string).

Inductive level : Type := Info | Warning | Error.

(** The observable history of one call of [search]:
    - [Sent r]: request [r] was issued;
    - [Failed r e]: that request raised [e];
    - [TypeErr e]: the interpreter raised [e] in the retriever's own code;
    - [Log l msg]: [self.logger] was called at level [l]. *)
Inductive event : Type :=
| Sent (r : request)
| Failed (r : request) (e : exn)
| TypeErr (e : exn)
| Log (l : level) (msg : string).

(** How a block of statements ends: it falls through with a value, it
    executes [return r], or it raises. *)
Inductive ctl (R A : Type) : Type :=
| Next (a : A)
| Return (r : R)
| Raise (e : exn).
Arguments Next {R A} a.
Arguments Return {R A} r.
Arguments Raise {R A} e.

(** A block inside a function returning [R]: how it ends and the events
    it produced, oldest first. *)
Definition M (R A : Type) : Type := (ctl R A * list event)%type.

Definition ret {R A} (a : A) : M R A := (Next a, []).

Definition bind {R A B} (m : M R A) (f : A -> M R B) : M R B :=
  match m with
  | (Next a, t) => let (c, t') := f a in (c, (t ++ t')%list)
  | (Return r, t) => (Return r, t)
  | (Raise e, t) => (Raise e, t)
  end.

Declare Scope py_scope.
Delimit Scope py_scope with py.
Notation "x <- m ;; k" := (bind m (fun x => k))
  (at level 61, m at next level, right associativity) : py_scope.
Notation "m ;;; k" := (bind m (fun _ => k))
  (at level 61, right associativity) : py_scope.
Local Open Scope py_scope.

Definition emit {R} (ev : event) : M R unit := (Next tt, [ev]).

(** [return r] *)
Definition return_ {R A} (r : R) : M R A := (Return r, []).

(** [self.logger.<level>(msg)] *)
Definition log {R} (l : level) (msg : string) : M R unit := emit (Log l msg).

(** Issue request [r]; [answer] is what the remote side does with it. *)
Definition perform {R A} (r : request) (answer : result A) : M R A :=
  match answer with
  | Ok a => (Next a, [Sent r])
  | Exc e => (Raise e, [Sent r; Failed r e])
  end.

(** [try: body / except Exception as e: handler e] *)
Definition try_except {R A} (body : M R A) (handler : exn -> M R A) : M R A :=
  match body with
  | (Raise e, t) => let (c, t') := handler e in (c, (t ++ t')%list)
  | other => other
  end.

(** [with cm: body], for a context manager whose [__exit__] returns
    None, as [AIProjectClient.__exit__] does: a pending exception is
    never suppressed.  [__exit__] runs however the body ends, and an
    exception it raises replaces the body's outcome. *)
Definition with_ {R A} (enter : M R unit) (exit : option exn -> M R unit)
    (body : M R A) : M R A :=
  match enter with
  | (Next _, t0) =>
      let (c, t1) := body in
      let pending := match c with Raise e => Some e | _ => None end in
      match exit pending with
      | (Next _, t2) => (c, (t0 ++ t1 ++ t2)%list)
      | (Return r, t2) => (Return r, (t0 ++ t1 ++ t2)%list)
      | (Raise e, t2) => (Raise e, (t0 ++ t1 ++ t2)%list)
      end
  | (Return r, t0) => (Return r, t0)
  | (Raise e, t0) => (Raise e, t0)
  end.

(** A function body whose every path ends in [return] or in an
    exception: it never falls through, so its fall-through type is
    empty. *)
Definition call {R} (body : M R Empty_set) : result R * list event :=
  match body with
  | (Next a, _) => match a with end
  | (Return r, t) => (Ok r, t)
  | (Raise e, t) => (Exc e, t)
  end.

(* ================================================================== *)
(** ** The retriever *)
(* ================================================================== *)

(** The [query_domains] argument.  The docstring announces an optional
    list of domains; [search] also accepts a value that is not a list
    and formats it as one domain.  Domains are strings. *)
Inductive domains : Type :=
| DomNone
| DomList (ds : list string)
| DomStr (d : string).

(** Truth value of a [query_domains] argument. *)
Definition domains_truthy (qd : domains) : bool :=
  match qd with
  | DomNone => false
  | DomList ds => match ds with [] => false | _ => true end
  | DomStr d => negb (String.eqb d "")
  end.

(** [AIProjectClient(endpoint=..., credential=..., api_version=...)] *)
Record AIProjectClient : Type := MkClient {
  client_endpoint : string;
  client_api_version : string
}.

(** The attributes [__init__] sets on [self] (the logger and the
    credential hold no data of their own). *)
Record BingSearch : Type := MkBingSearch {
  query : string;
  query_domains : domains;
  project_endpoint : string;
  bing_connection_name : string;
  project_client : AIProjectClient;
  bing_tool : BingGroundingTool
}.

(** The SDK constructors that [__init__] calls. *)
Record Sdk : Type := MkSdk {
  new_credential : result unit;
  new_project_client : string -> string -> result AIProjectClient;
  new_bing_tool : string -> result BingGroundingTool
}.

(** [not x] for [x = os.environ.get(...)]: unset or empty. *)
Definition setting_missing (x : option string) : bool :=
  match x with
  | None => true
  | Some s => String.eqb s ""
  end.

Definition missing_settings_error : exn :=
  MkExn "Exception"
    "Missing PROJECT_CONNECTION_STRING_ENV or BING_CONNECTION_NAME_ENV environment variables.".

(** Sequencing of constructor calls: the first exception wins. *)
Definition and_then {A B} (r : result A) (k : A -> result B) : result B :=
  match r with
  | Ok a => k a
  | Exc e => Exc e
  end.

(** [BingSearch.__init__(self, query, query_domains=None)].
    [environ] is [os.environ.get] once [load_dotenv()] has run. *)
Definition init (environ : string -> option string) (sdk : Sdk)
    (query : string) (query_domains : domains) : result BingSearch :=
  let query_domains := if domains_truthy query_domains then query_domains else DomNone in
  let project_endpoint := environ "AI_PROJECT_ENDPOINT" in
  let bing_connection_name := environ "BING_CONNECTION_NAME_ENV" in
  if setting_missing project_endpoint || setting_missing bing_connection_name
  then Exc missing_settings_error
  else
    match project_endpoint, bing_connection_name with
    | Some endpoint, Some connection =>
        and_then (new_credential sdk) (fun _ =>
        and_then (new_credential sdk) (fun _ =>
        and_then (new_project_client sdk endpoint "2025-05-15-preview") (fun client =>
        and_then (new_bing_tool sdk connection) (fun tool =>
        Ok (MkBingSearch query query_domains endpoint connection client tool)))))
    | _, _ => Exc missing_settings_error  (* not reached: both are set *)
    end.

(** Lines 48-54: the query text, with the domains as [site:] filters. *)
Definition build_query (self : BingSearch) : string :=
  let query := query self in
  if domains_truthy (query_domains self) then
    match query_domains self with
    | DomList ds =>
        let domains := map (fun d => "site:" ++ d) ds in
        query ++ (" " ++ String.concat " OR " domains)
    | DomStr d => query ++ (" site:" ++ d)
    | DomNone => query
    end
  else query.

(** What the remote service answers to each request of [search]. *)
Record Remote : Type := MkRemote {
  on_enter : result unit;
  on_create_agent : agent_config -> result Agent;
  on_create_thread : result Thread;
  on_create_message : string -> string -> string -> result unit;
  on_create_and_process : string -> string -> result Run;
  on_list_messages : string -> result (list value);
  on_delete_agent : string -> result unit;
  on_exit : option exn -> result unit
}.

(** Lines 63-67. *)
Definition agent_settings (self : BingSearch) : agent_config :=
  MkAgentConfig "gpt-4.1-mini" "gpt-researcher-bing-agent"
    "You are a helpful agent for Bing search." (bing_tool self)
    [("x-ms-enable-preview", "true")].

(** [getattr(msg, "role", None) == "assistant"] *)
Definition is_assistant (msg : value) : bool :=
  eq_str (getattr msg "role" PyNone) "assistant".

(** Lines 93-97: the first assistant message of [reversed(messages)]. *)
Definition last_assistant (messages : list value) : option value :=
  find is_assistant (rev messages).

(** Lines 108-124: one annotation, field by field. *)
Definition format_annotation (annotation : value) : value :=
  let ann_type := getattr annotation "type" PyNone in
  let ann_text := getattr annotation "text" PyNone in
  let start_index := getattr annotation "start_index" PyNone in
  let end_index := getattr annotation "end_index" PyNone in
  let url_citation := getattr annotation "url_citation" PyNone in
  let url := if truthy url_citation then getattr url_citation "url" PyNone else PyNone in
  let title := if truthy url_citation then getattr url_citation "title" PyNone else PyNone in
  PyDict [("type", ann_type);
          ("text", ann_text);
          ("start_index", start_index);
          ("end_index", end_index);
          ("url_citation",
            if truthy url_citation
            then PyDict [("url", url); ("title", title)]
            else PyNone)].

(** Lines 125-131: the single entry of the response. *)
Definition text_entry (value : value) (formatted_annotations : list Py.value) : Py.value :=
  PyDict [("type", PyStr "text");
          ("text", PyDict [("value", value);
                           ("annotations", PyList formatted_annotations)])].

(** The test of line 101: [Some (last_msg.text, last_msg.text.value)]
    when [last_msg] is set and truthy and has both attributes. *)
Definition message_text (last_msg : option value) : option (value * value) :=
  match last_msg with
  | Some msg =>
      if truthy msg then
        match lookup_attr msg "text" with
        | Some text =>
            match lookup_attr text "value" with
            | Some value => Some (text, value)
            | None => None
            end
        | None => None
        end
      else None
  | None => None
  end.

Definition not_iterable (v : value) : exn :=
  MkExn "TypeError" ("'" ++ type_name v ++ "' object is not iterable").

(** The interpreter raises [e]. *)
Definition throw {R A} (e : exn) : M R A := (Raise e, [TypeErr e]).

(** Lines 100-133: [response_list] from the selected message. *)
Definition build_response {R} (last_msg : option value) : M R (list value) :=
  match message_text last_msg with
  | Some (text, value) =>
      let annotations := getattr text "annotations" (PyList []) in
      match iter annotations with
      | Some items =>
          let formatted_annotations := map format_annotation items in
          ret [text_entry value formatted_annotations]
      | None => throw (not_iterable annotations)
      end
  | None =>
      log Warning "No response from the agent." ;;;
      ret []
  end.

(** Lines 136-141: the deletion block. *)
Definition delete_block {R} (w : Remote) (agent : option Agent) : M R unit :=
  try_except
    (match agent with
     | Some a =>
         perform (DeleteAgent (agent_id a)) (on_delete_agent w (agent_id a)) ;;;
         log Info ("Deleted agent with id: " ++ agent_id a)
     | None => ret tt
     end)
    (fun del_exc => log Warning ("Failed to delete agent: " ++ exn_str del_exc)).

(** Lines 59-143: the body of the [with] statement. *)
Definition with_body (self : BingSearch) (w : Remote) (query : string)
    : M (list value) Empty_set :=
  a <- perform (CreateAgent (agent_settings self))
         (on_create_agent w (agent_settings self)) ;;
  let agent := Some a in
  thread <- perform CreateThread (on_create_thread w) ;;
  log Info ("Created thread with id: " ++ thread_id thread) ;;;
  perform (CreateMessage (thread_id thread) "user" query)
    (on_create_message w (thread_id thread) "user" query) ;;;
  run <- perform (CreateAndProcessRun (thread_id thread) (agent_id a))
           (on_create_and_process w (thread_id thread) (agent_id a)) ;;
  response_list <-
    (if String.eqb (run_status run) "failed" then
       log Error ("Run failed: " ++ run_last_error run) ;;;
       return_ []
     else
       messages <- perform (ListMessages (thread_id thread))
                     (on_list_messages w (thread_id thread)) ;;
       let last_msg := last_assistant messages in
       build_response last_msg) ;;
  delete_block w agent ;;;
  return_ response_list.

(** [BingSearch.search(self, max_results=7)]: the value returned (or
    the exception raised) and the events of the call. *)
Definition search (self : BingSearch) (w : Remote) (max_results : Z)
    : result (list value) * list event :=
  let query := build_query self in
  call
    (try_except
       (with_ (perform ClientEnter (on_enter w))
              (fun pending => perform ClientExit (on_exit w pending))
              (with_body self w query))
       (fun e =>
          log Error ("Azure Bing Search failed: " ++ exn_str e) ;;;
          return_ [])).

Definition default_max_results : Z := 7.

(* ================================================================== *)
(** ** Observations on a call, and sample worlds *)
(* ================================================================== *)

(** [d[k]] for a dict [d]. *)
Definition dict_get (d : value) (k : string) : option value :=
  match d with
  | PyDict items => assoc k items
  | _ => None
  end.

Definition is_deletion (r : request) : bool :=
  match r with
  | DeleteAgent _ => true
  | _ => false
  end.

(** How many times deletion of agent [a] was requested. *)
Fixpoint count_deletions (a : string) (t : list event) : nat :=
  match t with
  | [] => 0
  | Sent (DeleteAgent a') :: rest =>
      (if String.eqb a a' then 1 else 0) + count_deletions a rest
  | _ :: rest => count_deletions a rest
  end.

(** The line the outer handler of [search] logs for exception [e]. *)
Definition search_failed_line (e : exn) : event :=
  Log Error ("Azure Bing Search failed: " ++ exn_str e).

(** The line the inner handler of [search] logs for exception [e]. *)
Definition delete_failed_line (e : exn) : event :=
  Log Warning ("Failed to delete agent: " ++ exn_str e).

(** The remote [w], except that every thread holds [msgs]. *)
Definition with_messages (w : Remote) (msgs : list value) : Remote :=
  MkRemote (on_enter w) (on_create_agent w) (on_create_thread w)
    (on_create_message w) (on_create_and_process w)
    (fun _ => Ok msgs) (on_delete_agent w) (on_exit w).

(** A process environment with both settings, and one without the
    connection name. *)
Definition sample_environ (k : string) : option string :=
  if String.eqb k "AI_PROJECT_ENDPOINT" then Some "https://example.services.ai.azure.com"
  else if String.eqb k "BING_CONNECTION_NAME_ENV" then Some "bing-connection"
  else None.

Definition partial_environ (k : string) : option string :=
  if String.eqb k "AI_PROJECT_ENDPOINT" then Some "https://example.services.ai.azure.com"
  else None.

Definition sample_sdk : Sdk :=
  MkSdk (Ok tt) (fun endpoint version => Ok (MkClient endpoint version))
    (fun connection => Ok (MkTool connection)).

(** The retriever [BingSearch("cats", qd)] in [sample_environ]. *)
Definition sample_retriever (qd : domains) : BingSearch :=
  MkBingSearch "cats" qd "https://example.services.ai.azure.com" "bing-connection"
    (MkClient "https://example.services.ai.azure.com" "2025-05-15-preview")
    (MkTool "bing-connection").

Definition sample_citation : value :=
  PyObj "MessageTextUrlCitationAnnotation"
    [("type", PyStr "url_citation"); ("text", PyStr "[1]");
     ("start_index", PyInt 10); ("end_index", PyInt 13);
     ("url_citation",
       PyObj "MessageTextUrlCitationDetails" [("url", PyStr "https://a.com/cats")])].

(** An annotation that carries a type and nothing else. *)
Definition bare_annotation : value := PyObj "MessageTextAnnotation" [("type", PyStr "note")].

Definition user_message : value :=
  PyObj "ThreadMessage"
    [("role", PyStr "user"); ("text", PyObj "MessageText" [("value", PyStr "cats")])].

Definition assistant_message : value :=
  PyObj "ThreadMessage"
    [("role", PyStr "assistant");
     ("text", PyObj "MessageText"
        [("value", PyStr "Cats are mammals.");
         ("annotations", PyList [sample_citation; bare_annotation])])].

Definition older_assistant_message : value :=
  PyObj "ThreadMessage"
    [("role", PyStr "assistant");
     ("text", PyObj "MessageText" [("value", PyStr "Thinking.")])].

Definition sample_error : exn := MkExn "HttpResponseError" "service unavailable".

(** A remote on which every request before the run succeeds; the run
    ends with [status], the thread holds [msgs], and deletion, listing
    and leaving the client answer [deletion], [listing] and [leaving]. *)
Definition sample_remote (status : string) (listing : result (list value))
    (deletion leaving : result unit) : Remote :=
  MkRemote (Ok tt)
    (fun _ => Ok (MkAgent "asst_1"))
    (Ok (MkThread "thread_1"))
    (fun _ _ _ => Ok tt)
    (fun _ _ => Ok (MkRun status "rate limit"))
    (fun _ => listing)
    (fun _ => deletion)
    (fun _ => leaving).

Definition sample_thread : list value :=
  [older_assistant_message; user_message; assistant_message; user_message].

(** The run completes and every request succeeds. *)
Definition healthy_remote : Remote :=
  sample_remote "completed" (Ok sample_thread) (Ok tt) (Ok tt).

(** The run reports the status "failed". *)
Definition failed_run_remote : Remote :=
  sample_remote "failed" (Ok sample_thread) (Ok tt) (Ok tt).

(** Listing the messages raises. *)
Definition failed_listing_remote : Remote :=
  sample_remote "completed" (Exc sample_error) (Ok tt) (Ok tt).

(** Only the deletion of the agent raises. *)
Definition failed_deletion_remote : Remote :=
  sample_remote "completed" (Ok sample_thread) (Exc sample_error) (Ok tt).

(** Listing raises, and so does leaving the client afterwards. *)
Definition failed_exit_remote : Remote :=
  sample_remote "completed" (Exc sample_error)
    (Ok tt) (Exc (MkExn "RuntimeError" "transport already closed")).

(** The call gets as far as the run: every request before it succeeds,
    creating agent [a] and thread [t], and the run comes back as [r]. *)
Definition run_reached (self : BingSearch) (w : Remote)
    (a : Agent) (t : Thread) (r : Run) : Prop :=
  on_enter w = Ok tt /\
  on_create_agent w (agent_settings self) = Ok a /\
  on_create_thread w = Ok t /\
  on_create_message w (thread_id t) "user" (build_query self) = Ok tt /\
  on_create_and_process w (thread_id t) (agent_id a) = Ok r.

(** The remote [w], except that deleting an agent answers [deletion]. *)
Definition with_deletion (w : Remote) (deletion : string -> result unit) : Remote :=
  MkRemote (on_enter w) (on_create_agent w) (on_create_thread w)
    (on_create_message w) (on_create_and_process w)
    (on_list_messages w) deletion (on_exit w).

(** The outcome [out] of a call treats [e] as a failure of the search:
    the call returns the empty list and the outer handler logged [e]. *)
Definition ends_as_failure (out : result (list value) * list event) (e : exn) : Prop :=
  fst out = Ok [] /\ In (search_failed_line e) (snd out).

(** The requests of a trace, in the order they were sent. *)
Fixpoint sent_requests (t : list event) : list request :=
  match t with
  | [] => []
  | Sent r :: rest => r :: sent_requests rest
  | _ :: rest => sent_requests rest
  end.

(** The place of a request in the body of [search], by line. *)
Definition rank (r : request) : nat :=
  match r with
  | ClientEnter => 0
  | CreateAgent _ => 1
  | CreateThread => 2
  | CreateMessage _ _ _ => 3
  | CreateAndProcessRun _ _ => 4
  | ListMessages _ => 5
  | DeleteAgent _ => 6
  | ClientExit => 7
  end.

(** Each number is smaller than the next one. *)
Fixpoint ascending (l : list nat) : bool :=
  match l with
  | [] => true
  | x :: rest =>
      match rest with
      | [] => true
      | y :: _ => Nat.ltb x y && ascending rest
      end
  end.

(** The keys of a dict, in order. *)
Definition keys (d : value) : option (list string) :=
  match d with
  | PyDict items => Some (map fst items)
  | _ => None
  end.

(** The shape of one formatted annotation: the five keys, with
    [url_citation] either None or a dict of [url] and [title]. *)
Definition annotation_shaped (d : value) : Prop :=
  keys d = Some ["type"; "text"; "start_index"; "end_index"; "url_citation"] /\
  (dict_get d "url_citation" = Some PyNone \/
   exists citation,
     dict_get d "url_citation" = Some citation /\
     keys citation = Some ["url"; "title"]).

(** The shape of one entry of the returned list. *)
Definition entry_shaped (d : value) : Prop :=
  keys d = Some ["type"; "text"] /\
  dict_get d "type" = Some (PyStr "text") /\
  exists text annotations,
    dict_get d "text" = Some text /\
    keys text = Some ["value"; "annotations"] /\
    dict_get text "annotations" = Some (PyList annotations) /\
    Forall annotation_shaped annotations.

(** An assistant message that carries no text, one whose text has no
    value, and one whose annotations are None. *)
Definition textless_assistant_message : value :=
  PyObj "ThreadMessage" [("role", PyStr "assistant")].

Definition valueless_assistant_message : value :=
  PyObj "ThreadMessage"
    [("role", PyStr "assistant"); ("text", PyObj "MessageText" [])].

Definition unannotated_assistant_message : value :=
  PyObj "ThreadMessage"
    [("role", PyStr "assistant");
     ("text", PyObj "MessageText"
        [("value", PyStr "Cats purr."); ("annotations", PyNone)])].

(** An SDK whose client constructor raises. *)
Definition broken_sdk : Sdk :=
  MkSdk (Ok tt) (fun _ _ => Exc (MkExn "ValueError" "invalid endpoint"))
    (fun connection => Ok (MkTool connection)).

(** The client cannot be entered. *)
Definition closed_remote : Remote :=
  MkRemote (Exc sample_error)
    (fun _ => Ok (MkAgent "asst_1"))
    (Ok (MkThread "thread_1"))
    (fun _ _ _ => Ok tt)
    (fun _ _ => Ok (MkRun "completed" ""))
    (fun _ => Ok [])
    (fun _ => Ok tt)
    (fun _ => Ok tt).

(* ================================================================== *)
(** ** Proof tools *)
(* ================================================================== *)

(** Case analysis on the next answer of the remote side. *)
Ltac answer :=
  match goal with
  | |- context [on_enter ?w] =>
      destruct (on_enter w) as [[]|?] eqn:?
  | |- context [on_create_agent ?w ?c] =>
      destruct (on_create_agent w c) as [?|?] eqn:?
  | |- context [on_create_thread ?w] =>
      destruct (on_create_thread w) as [?|?] eqn:?
  | |- context [on_create_message ?w ?a ?b ?c] =>
      destruct (on_create_message w a b c) as [[]|?] eqn:?
  | |- context [on_create_and_process ?w ?a ?b] =>
      destruct (on_create_and_process w a b) as [?|?] eqn:?
  | |- context [String.eqb (run_status ?r) "failed"] =>
      destruct (String.eqb (run_status r) "failed") eqn:?
  | |- context [on_list_messages ?w ?a] =>
      destruct (on_list_messages w a) as [?|?] eqn:?
  | |- context [message_text ?m] =>
      destruct (message_text m) as [[? ?]|] eqn:?
  | |- context [iter ?v] =>
      destruct (iter v) as [?|] eqn:?
  | |- context [on_delete_agent ?w ?a] =>
      destruct (on_delete_agent w a) as [[]|?] eqn:?
  | |- context [on_exit ?w ?p] =>
      destruct (on_exit w p) as [[]|?] eqn:?
  end.

Ltac unfold_search :=
  unfold search, with_body, build_response, delete_block, with_, try_except,
    call, perform, log, emit, return_, ret, throw, bind.

(** Every path through [search], one goal per path. *)
Ltac run_search :=
  unfold_search; repeat (answer; cbn [bind fst snd app]).

(** Membership of an event in an explicit trace. *)
Ltac members :=
  repeat match goal with
  | H : In _ (_ :: _) |- _ => destruct H as [H|H]
  | H : In _ [] |- _ => destruct H
  | H : False |- _ => destruct H
  | H : @eq event _ _ |- _ => first [discriminate H | injection H as ? ?; subst | injection H as ?; subst]
  end.

(* ================================================================== *)
(** ** Construction *)
(* ================================================================== *)

Lemma setting_missing_false (x : option string) :
  setting_missing x = false -> exists s, x = Some s /\ s <> "".
Proof.
  destruct x as [s|]; simpl; [|discriminate].
  intros H. exists s. split; [reflexivity|].
  intros ->. discriminate.
Qed.

Lemma setting_present (s : string) : s <> "" -> setting_missing (Some s) = false.
Proof.
  intros H. simpl. apply String.eqb_neq. exact H.
Qed.

(** C7. Construction raises when the endpoint setting or the connection
    name setting is unset or empty (whatever the SDK does); when both
    are set and non-empty the check passes, and with the SDK
    constructors succeeding construction yields the retriever. *)
Theorem init_requires_both_settings :
  (forall environ sdk q qd,
      environ "AI_PROJECT_ENDPOINT" = None \/
      environ "AI_PROJECT_ENDPOINT" = Some "" \/
      environ "BING_CONNECTION_NAME_ENV" = None \/
      environ "BING_CONNECTION_NAME_ENV" = Some "" ->
      init environ sdk q qd = Exc missing_settings_error) /\
  (forall environ sdk q qd endpoint connection client tool,
      environ "AI_PROJECT_ENDPOINT" = Some endpoint -> endpoint <> "" ->
      environ "BING_CONNECTION_NAME_ENV" = Some connection -> connection <> "" ->
      new_credential sdk = Ok tt ->
      new_project_client sdk endpoint "2025-05-15-preview" = Ok client ->
      new_bing_tool sdk connection = Ok tool ->
      init environ sdk q qd =
        Ok (MkBingSearch q (if domains_truthy qd then qd else DomNone)
              endpoint connection client tool)).
Proof.
  split.
  - intros environ sdk q qd H. unfold init.
    destruct H as [H|[H|[H|H]]]; rewrite H; simpl;
      try reflexivity; rewrite orb_true_r; reflexivity.
  - intros environ sdk q qd endpoint connection client tool
      He Hne Hc Hnc Hcred Hclient Htool.
    unfold init. rewrite He, Hc.
    rewrite (setting_present _ Hne), (setting_present _ Hnc). simpl.
    rewrite Hcred. simpl. rewrite Hclient. simpl. rewrite Htool. reflexivity.
Qed.

Lemma init_requires_both_settings_witness :
  init partial_environ sample_sdk "cats" DomNone = Exc missing_settings_error /\
  init sample_environ sample_sdk "cats" (DomList ["a.com"; "b.com"]) =
    Ok (sample_retriever (DomList ["a.com"; "b.com"])).
Proof.
  split.
  - apply (proj1 init_requires_both_settings partial_environ sample_sdk).
    right. right. left. reflexivity.
  - apply (proj2 init_requires_both_settings sample_environ sample_sdk "cats"
             (DomList ["a.com"; "b.com"])
             "https://example.services.ai.azure.com" "bing-connection").
    + reflexivity.
    + discriminate.
    + reflexivity.
    + discriminate.
    + reflexivity.
    + reflexivity.
    + reflexivity.
Defined.

(** The stored filters are the argument when it is truthy, else None. *)
Lemma init_query_domains environ sdk q qd self :
  init environ sdk q qd = Ok self ->
  query self = q /\
  query_domains self = (if domains_truthy qd then qd else DomNone).
Proof.
  unfold init.
  destruct (setting_missing _ || setting_missing _); [discriminate|].
  destruct (environ "AI_PROJECT_ENDPOINT"); [|discriminate].
  destruct (environ "BING_CONNECTION_NAME_ENV"); [|discriminate].
  destruct (new_credential sdk); simpl; [|discriminate].
  destruct (new_project_client sdk _ _); simpl; [|discriminate].
  destruct (new_bing_tool sdk _); simpl; [|discriminate].
  intros H. injection H as <-. simpl. split; reflexivity.
Qed.

(* ================================================================== *)
(** ** The transmitted query *)
(* ================================================================== *)

(** The only message [search] ever sends is the built query, by the
    user role. *)
Lemma sent_message_is_built_query self w mr thread role content :
  In (Sent (CreateMessage thread role content)) (snd (search self w mr)) ->
  role = "user" /\ content = build_query self.
Proof.
  run_search; cbn [snd]; intros H; members; split; reflexivity.
Qed.

(** With a list of domains the query is followed by a space and the
    [site:] filters joined by " OR ". *)
Lemma build_query_list self d ds :
  query_domains self = DomList (d :: ds) ->
  build_query self =
    query self ++ (" " ++ String.concat " OR " (map (fun x => "site:" ++ x) (d :: ds))).
Proof.
  intros H. unfold build_query. rewrite H. reflexivity.
Qed.

Lemma build_query_none self :
  query_domains self = DomNone -> build_query self = query self.
Proof.
  intros H. unfold build_query. rewrite H. reflexivity.
Qed.

(** C3. A retriever constructed for query [q] with the domain filters
    a.com and b.com transmits [q] followed by
    " site:a.com OR site:b.com"; constructed with no domain filters it
    transmits [q] unchanged. *)
Theorem transmitted_query_carries_site_filters :
  (forall environ sdk q self w mr thread role content,
      init environ sdk q (DomList ["a.com"; "b.com"]) = Ok self ->
      In (Sent (CreateMessage thread role content)) (snd (search self w mr)) ->
      content = q ++ " site:a.com OR site:b.com") /\
  (forall environ sdk q self w mr thread role content,
      init environ sdk q DomNone = Ok self ->
      In (Sent (CreateMessage thread role content)) (snd (search self w mr)) ->
      content = q).
Proof.
  split; intros environ sdk q self w mr thread role content Hinit Hsent;
    apply init_query_domains in Hinit; destruct Hinit as [Hq Hd];
    apply sent_message_is_built_query in Hsent; destruct Hsent as [_ ->];
    simpl in Hd.
  - rewrite (build_query_list _ _ _ Hd), Hq. reflexivity.
  - rewrite (build_query_none _ Hd), Hq. reflexivity.
Qed.

Lemma transmitted_query_carries_site_filters_witness :
  (In (Sent (CreateMessage "thread_1" "user" "cats site:a.com OR site:b.com"))
      (snd (search (sample_retriever (DomList ["a.com"; "b.com"])) healthy_remote default_max_results)) /\
   "cats site:a.com OR site:b.com" = "cats" ++ " site:a.com OR site:b.com") /\
  (In (Sent (CreateMessage "thread_1" "user" "cats"))
      (snd (search (sample_retriever DomNone) healthy_remote default_max_results)) /\
   "cats" = "cats").
Proof.
  split; split.
  - vm_compute. tauto.
  - apply (proj1 transmitted_query_carries_site_filters sample_environ sample_sdk
             "cats" (sample_retriever (DomList ["a.com"; "b.com"])) healthy_remote default_max_results
             "thread_1" "user").
    + reflexivity.
    + vm_compute. tauto.
  - vm_compute. tauto.
  - apply (proj2 transmitted_query_carries_site_filters sample_environ sample_sdk
             "cats" (sample_retriever DomNone) healthy_remote default_max_results
             "thread_1" "user").
    + reflexivity.
    + vm_compute. tauto.
Defined.

(** C10. A falsy [query_domains] argument (the empty list, the empty
    string, None) constructs the same retriever as no argument: the
    stored filters are None and the transmitted query is the raw
    query. *)
Theorem falsy_domains_mean_no_filters :
  forall environ sdk q qd,
    domains_truthy qd = false ->
    init environ sdk q qd = init environ sdk q DomNone /\
    (forall self,
        init environ sdk q qd = Ok self ->
        query_domains self = DomNone /\
        build_query self = q /\
        (forall w mr thread role content,
            In (Sent (CreateMessage thread role content)) (snd (search self w mr)) ->
            content = q)).
Proof.
  intros environ sdk q qd Hfalsy. split.
  - unfold init. rewrite Hfalsy. reflexivity.
  - intros self Hinit. apply init_query_domains in Hinit.
    rewrite Hfalsy in Hinit. destruct Hinit as [Hq Hd].
    assert (Hb : build_query self = q)
      by (rewrite (build_query_none _ Hd); exact Hq).
    repeat split; [exact Hd | exact Hb |].
    intros w mr thread role content Hsent.
    apply sent_message_is_built_query in Hsent. destruct Hsent as [_ ->].
    exact Hb.
Qed.

Lemma falsy_domains_mean_no_filters_witness :
  init sample_environ sample_sdk "cats" (DomList []) =
    init sample_environ sample_sdk "cats" DomNone /\
  query_domains (sample_retriever DomNone) = DomNone /\
  build_query (sample_retriever DomNone) = "cats" /\
  "cats" = "cats".
Proof.
  pose proof (falsy_domains_mean_no_filters sample_environ sample_sdk "cats"
                (DomList []) eq_refl) as [Hsame Hself].
  destruct (Hself (sample_retriever DomNone) eq_refl) as [Hd [Hb Hsent]].
  split; [exact Hsame | split; [exact Hd | split; [exact Hb |]]].
  apply (Hsent healthy_remote default_max_results "thread_1" "user"). vm_compute. tauto.
Defined.

(* ================================================================== *)
(** ** What [search] returns *)
(* ================================================================== *)

(** C8. Two calls that differ only in [max_results] send the same
    requests, log the same lines and return the same list. *)
Theorem search_ignores_max_results :
  forall self w m1 m2, search self w m1 = search self w m2.
Proof.
  intros self w m1 m2. reflexivity.
Qed.

(** C9. [search] returns a list that is empty or holds exactly one
    entry, the text of one message with its annotations; it never
    returns two or more results. *)
Theorem search_returns_at_most_one_entry :
  forall self w mr,
    exists l,
      fst (search self w mr) = Ok l /\
      (length l <= 1)%nat /\
      (l = [] \/ exists v anns, l = [text_entry v anns]).
Proof.
  intros self w mr. run_search;
    eexists; (split; [reflexivity|]); (split; [simpl; lia|]);
    solve [left; reflexivity | right; eexists; eexists; reflexivity].
Qed.

Ltac follow H := rewrite H; cbn [bind fst snd app].

(** Up to the run, a call that reaches it is determined. *)
Ltac reach Hrun :=
  destruct Hrun as (Henter & Hagent & Hthread & Hmessage & Hrun);
  unfold_search;
  follow Henter; follow Hagent; follow Hthread; follow Hmessage; follow Hrun.

(** C4. When the run comes back with the status "failed", [search]
    returns the empty list and raises nothing. *)
Theorem search_failed_run_returns_empty :
  forall self w mr a t r,
    run_reached self w a t r ->
    run_status r = "failed" ->
    fst (search self w mr) = Ok [].
Proof.
  intros self w mr a t r Hrun Hstatus.
  reach Hrun. rewrite Hstatus. cbn [String.eqb Ascii.eqb Bool.eqb].
  cbn. destruct (on_exit w None) as [[]|e]; reflexivity.
Qed.

Lemma search_failed_run_returns_empty_witness :
  fst (search (sample_retriever DomNone) failed_run_remote default_max_results) = Ok [].
Proof.
  apply (search_failed_run_returns_empty (sample_retriever DomNone) failed_run_remote
           default_max_results (MkAgent "asst_1") (MkThread "thread_1")
           (MkRun "failed" "rate limit")).
  - unfold run_reached. repeat split; reflexivity.
  - reflexivity.
Defined.

(** C1, on the code as written.  The agent [asst_1] is created, and
    its deletion is never requested: neither when the run reports the
    status "failed" (the [return] of line 88 leaves before the deletion
    block), nor when a later request raises (control goes to the outer
    handler).  Without a failure it is requested once. *)
Theorem search_skips_deletion_after_failure :
  let created := Sent (CreateAgent (agent_settings (sample_retriever DomNone))) in
  let trace w := snd (search (sample_retriever DomNone) w default_max_results) in
  (In created (trace failed_run_remote) /\
   count_deletions "asst_1" (trace failed_run_remote) = 0%nat) /\
  (In created (trace failed_listing_remote) /\
   count_deletions "asst_1" (trace failed_listing_remote) = 0%nat) /\
  (In created (trace healthy_remote) /\
   count_deletions "asst_1" (trace healthy_remote) = 1%nat).
Proof.
  vm_compute. tauto.
Qed.

(** Deletion is requested at most once, and only for an agent that was
    created in this call. *)
Lemma deletion_requested_at_most_once self w mr a :
  (count_deletions a (snd (search self w mr)) <= 1)%nat /\
  (In (Sent (DeleteAgent a)) (snd (search self w mr)) ->
   exists ag, on_create_agent w (agent_settings self) = Ok ag /\ agent_id ag = a).
Proof.
  run_search; cbn [snd count_deletions]; split;
    try lia; try (destruct (String.eqb a _); simpl; lia);
    intros H; members; eexists; split; reflexivity.
Qed.

(** Whenever the run reports "failed", the agent it ran is left
    behind: its deletion is not requested. *)
Lemma failed_run_never_deletes self w mr a t r :
  run_reached self w a t r ->
  run_status r = "failed" ->
  count_deletions (agent_id a) (snd (search self w mr)) = 0%nat.
Proof.
  intros Hrun Hstatus.
  reach Hrun. rewrite Hstatus. cbn [String.eqb Ascii.eqb Bool.eqb].
  cbn. destruct (on_exit w None) as [[]|e]; reflexivity.
Qed.

(* ================================================================== *)
(** ** Exceptions *)
(* ================================================================== *)

(** C2 as stated fails on the code.  When only the deletion of the
    agent raises, the exception is handled inside the deletion block
    and the call returns the entry it built, not the empty list; and
    when leaving the client raises while an exception is pending, the
    outer handler logs the exception of the exit, not the pending one. *)
Lemma deletion_failure_keeps_the_result :
  let out := search (sample_retriever DomNone) failed_deletion_remote default_max_results in
  let out' := search (sample_retriever DomNone) failed_exit_remote default_max_results in
  (In (Failed (DeleteAgent "asst_1") sample_error) (snd out) /\
   fst out <> Ok [] /\
   ~ ends_as_failure out sample_error) /\
  (In (Failed (ListMessages "thread_1") sample_error) (snd out') /\
   ~ ends_as_failure out' sample_error).
Proof.
  unfold ends_as_failure. vm_compute.
  repeat split; try tauto; try discriminate.
  - intros [H _]. discriminate H.
  - intros [_ H]. repeat (destruct H as [H|H]; [discriminate H|]). exact H.
Qed.

(** C2, amended.  No exception leaves [search].  An exception raised
    by any request other than the deletion, or by the interpreter while
    the response is built, ends the call with the empty list, and the
    outer handler logs the exception that reaches it: that exception,
    or the one that leaving the client raised in its place.  An
    exception raised by the deletion is logged by the inner handler,
    and what the deletion does has no influence on the returned list. *)
Theorem search_contains_every_exception :
  forall self w mr,
    let out := search self w mr in
    (exists l, fst out = Ok l) /\
    (forall r e,
        In (Failed r e) (snd out) -> is_deletion r = false ->
        ends_as_failure out e \/
        exists e', In (Failed ClientExit e') (snd out) /\ ends_as_failure out e') /\
    (forall e,
        In (TypeErr e) (snd out) ->
        ends_as_failure out e \/
        exists e', In (Failed ClientExit e') (snd out) /\ ends_as_failure out e') /\
    (forall a e,
        In (Failed (DeleteAgent a) e) (snd out) -> In (delete_failed_line e) (snd out)) /\
    (forall deletion,
        fst (search self (with_deletion w deletion) mr) = fst out).
Proof.
  intros self w mr out. subst out. unfold ends_as_failure.
  split; [|split; [|split; [|split]]].
  - run_search; eexists; reflexivity.
  - intros r e. run_search; cbn [fst snd]; intros H Hr; members;
      try discriminate Hr; unfold search_failed_line;
      solve [ left; split; [reflexivity | simpl; tauto]
            | right; eexists; split; [|split; [reflexivity|]]; simpl; tauto ].
  - intros e. run_search; cbn [fst snd]; intros H; members;
      unfold search_failed_line;
      solve [ left; split; [reflexivity | simpl; tauto]
            | right; eexists; split; [|split; [reflexivity|]]; simpl; tauto ].
  - intros a e. run_search; cbn [snd]; intros H; members;
      unfold delete_failed_line; simpl; tauto.
  - intros deletion. unfold_search.
    cbn [with_deletion on_enter on_create_agent on_create_thread on_create_message
         on_create_and_process on_list_messages on_delete_agent on_exit].
    repeat (first [ answer
                  | match goal with
                    | |- context [deletion ?a] => destruct (deletion a) as [[]|?]
                    end ];
            cbn [bind fst snd app]);
      first [reflexivity | congruence].
Qed.

Lemma search_contains_every_exception_witness :
  let out := search (sample_retriever DomNone) failed_listing_remote default_max_results in
  let out' := search (sample_retriever DomNone) failed_deletion_remote default_max_results in
  (ends_as_failure out sample_error \/
   exists e', In (Failed ClientExit e') (snd out) /\ ends_as_failure out e') /\
  In (delete_failed_line sample_error) (snd out').
Proof.
  intros out out'. split.
  - apply (proj1 (proj2 (search_contains_every_exception (sample_retriever DomNone)
             failed_listing_remote default_max_results)) (ListMessages "thread_1")).
    + vm_compute. tauto.
    + reflexivity.
  - apply (proj1 (proj2 (proj2 (proj2 (search_contains_every_exception
             (sample_retriever DomNone) failed_deletion_remote default_max_results))))
             "asst_1").
    vm_compute. tauto.
Defined.

(* ================================================================== *)
(** ** Selecting the message *)
(* ================================================================== *)

Lemma find_skips_prefix {A} (f : A -> bool) (l1 l2 : list A) :
  (forall x, In x l1 -> f x = false) -> find f (l1 ++ l2) = find f l2.
Proof.
  induction l1 as [|y l1 IH]; intros H; simpl.
  - reflexivity.
  - rewrite (H y (or_introl eq_refl)). apply IH.
    intros x Hx. apply H. right. exact Hx.
Qed.

(** The scan picks the assistant message that no assistant message
    follows. *)
Lemma last_assistant_found pre m post :
  is_assistant m = true ->
  (forall x, In x post -> is_assistant x = false) ->
  last_assistant (pre ++ m :: post) = Some m.
Proof.
  intros Hm Hpost. unfold last_assistant.
  rewrite rev_app_distr. simpl. rewrite <- app_assoc.
  rewrite find_skips_prefix.
  - simpl. rewrite Hm. reflexivity.
  - intros x Hx. apply Hpost. apply in_rev. exact Hx.
Qed.

Lemma last_assistant_absent msgs :
  (forall x, In x msgs -> is_assistant x = false) ->
  last_assistant msgs = None.
Proof.
  intros H. unfold last_assistant.
  rewrite <- (app_nil_r (rev msgs)). rewrite find_skips_prefix.
  - reflexivity.
  - intros x Hx. apply H. apply in_rev. exact Hx.
Qed.

(** The thread enters the call only through the selected message. *)
Lemma search_depends_on_selection self w mr msgs msgs' :
  last_assistant msgs = last_assistant msgs' ->
  search self (with_messages w msgs) mr = search self (with_messages w msgs') mr.
Proof.
  intros H. unfold search, with_body.
  cbn [with_messages on_enter on_create_agent on_create_thread on_create_message
       on_create_and_process on_list_messages on_delete_agent on_exit].
  unfold perform, bind. cbv beta iota. rewrite H. reflexivity.
Qed.

(** An assistant message is an instance, hence truthy. *)
Lemma assistant_is_truthy m : is_assistant m = true -> truthy m = true.
Proof.
  unfold is_assistant, getattr.
  destruct m; simpl; try discriminate; reflexivity.
Qed.

(** C5. The messages are scanned from the last one backwards and the
    first assistant message met is the one selected: the call behaves
    as if the thread held that message alone.  When the thread holds no
    assistant message the call returns the empty list.  The selected
    message is the one whose text is extracted: when the call gets to
    the thread and leaves the client normally, it returns exactly one
    entry, whose value is the [text.value] of that message and whose
    annotations are the formatted annotations of its text, whatever
    the messages before and after it hold. *)
Theorem search_selects_last_assistant_message :
  (forall pre m post,
      is_assistant m = true ->
      (forall x, In x post -> is_assistant x = false) ->
      last_assistant (pre ++ m :: post) = Some m /\
      forall self w mr,
        search self (with_messages w (pre ++ m :: post)) mr =
        search self (with_messages w [m]) mr) /\
  (forall msgs,
      (forall x, In x msgs -> is_assistant x = false) ->
      last_assistant msgs = None /\
      forall self w mr,
        fst (search self (with_messages w msgs) mr) = Ok []) /\
  (forall self w mr a t r pre m post text v items,
      run_reached self w a t r ->
      run_status r <> "failed" ->
      on_list_messages w (thread_id t) = Ok (pre ++ m :: post)%list ->
      is_assistant m = true ->
      (forall x, In x post -> is_assistant x = false) ->
      lookup_attr m "text" = Some text ->
      lookup_attr text "value" = Some v ->
      iter (getattr text "annotations" (PyList [])) = Some items ->
      on_exit w None = Ok tt ->
      exists entry entry_text,
        fst (search self w mr) = Ok [entry] /\
        dict_get entry "type" = Some (PyStr "text") /\
        dict_get entry "text" = Some entry_text /\
        dict_get entry_text "value" = Some v /\
        dict_get entry_text "annotations" =
          Some (PyList (map format_annotation items))).
Proof.
  split; [|split].
  - intros pre m post Hm Hpost.
    pose proof (last_assistant_found pre m post Hm Hpost) as Hsel.
    split; [exact Hsel|].
    intros self w mr. apply search_depends_on_selection.
    rewrite Hsel. symmetry.
    apply (last_assistant_found [] m []); [exact Hm | intros x []].
  - intros msgs Hnone.
    pose proof (last_assistant_absent msgs Hnone) as Hsel.
    split; [exact Hsel|].
    intros self w mr.
    rewrite (search_depends_on_selection self w mr msgs []) by exact Hsel.
    unfold_search.
    cbn [with_messages on_enter on_create_agent on_create_thread on_create_message
         on_create_and_process on_list_messages on_delete_agent on_exit].
    repeat (answer; cbn [bind fst snd app]);
      first [ reflexivity
            | match goal with
              | H : message_text _ = Some _ |- _ => discriminate H
              end ].
  - intros self w mr a t r pre m post text v items
      Hrun Hstatus Hlist Hm Hpost Htext Hvalue Hiter Hexit.
    apply String.eqb_neq in Hstatus.
    pose proof (last_assistant_found pre m post Hm Hpost) as Hsel.
    pose proof (assistant_is_truthy m Hm) as Htruthy.
    assert (Hmt : message_text (last_assistant (pre ++ m :: post)) = Some (text, v)).
    { rewrite Hsel. unfold message_text. rewrite Htruthy, Htext, Hvalue. reflexivity. }
    exists (text_entry v (map format_annotation items)).
    exists (PyDict [("value", v);
                    ("annotations", PyList (map format_annotation items))]).
    split; [|repeat split; reflexivity].
    reach Hrun. follow Hstatus. follow Hlist. follow Hmt. follow Hiter.
    destruct (on_delete_agent w (agent_id a)) as [[]|e];
      cbn [bind fst snd app]; rewrite Hexit; reflexivity.
Qed.

Lemma search_selects_last_assistant_message_witness :
  (last_assistant sample_thread = Some assistant_message /\
   search (sample_retriever DomNone) (with_messages healthy_remote sample_thread)
     default_max_results =
   search (sample_retriever DomNone) (with_messages healthy_remote [assistant_message])
     default_max_results) /\
  (last_assistant [user_message; user_message] = None /\
   fst (search (sample_retriever DomNone)
          (with_messages healthy_remote [user_message; user_message])
          default_max_results) = Ok []) /\
  (exists entry entry_text,
      fst (search (sample_retriever DomNone) healthy_remote default_max_results) =
        Ok [entry] /\
      dict_get entry "type" = Some (PyStr "text") /\
      dict_get entry "text" = Some entry_text /\
      dict_get entry_text "value" = Some (PyStr "Cats are mammals.") /\
      dict_get entry_text "annotations" =
        Some (PyList (map format_annotation [sample_citation; bare_annotation]))).
Proof.
  split; [|split].
  - destruct (proj1 search_selects_last_assistant_message
               [older_assistant_message; user_message] assistant_message [user_message])
      as [Hsel Hsame].
    + reflexivity.
    + intros x [<-|[]]. reflexivity.
    + split; [exact Hsel|]. apply Hsame.
  - destruct (proj1 (proj2 search_selects_last_assistant_message)
               [user_message; user_message])
      as [Hsel Hempty].
    + intros x [<-|[<-|[]]]; reflexivity.
    + split; [exact Hsel|]. apply Hempty.
  - apply (proj2 (proj2 search_selects_last_assistant_message)
             (sample_retriever DomNone) healthy_remote default_max_results
             (MkAgent "asst_1") (MkThread "thread_1") (MkRun "completed" "rate limit")
             [older_assistant_message; user_message] assistant_message [user_message]
             (PyObj "MessageText"
                [("value", PyStr "Cats are mammals.");
                 ("annotations", PyList [sample_citation; bare_annotation])])).
    + unfold run_reached. repeat split; reflexivity.
    + discriminate.
    + reflexivity.
    + reflexivity.
    + intros x [<-|[]]. reflexivity.
    + reflexivity.
    + reflexivity.
    + reflexivity.
    + reflexivity.
Defined.

(* ================================================================== *)
(** ** Formatting the annotations *)
(* ================================================================== *)

Lemma getattr_missing v name default :
  hasattr v name = false -> getattr v name default = default.
Proof.
  unfold hasattr, getattr. destruct (lookup_attr v name); [discriminate|reflexivity].
Qed.

Lemma last_assistant_is_assistant msgs m :
  last_assistant msgs = Some m -> is_assistant m = true.
Proof.
  unfold last_assistant. intros H. apply find_some in H. apply H.
Qed.

(** C6. Each annotation becomes a dict in which a missing type, text,
    start_index or end_index is None; a missing (or None) url_citation
    is None; and a url_citation that is there becomes a dict in which a
    missing url or title is None.  No annotation makes the call fail:
    when the selected message carries a text value and an annotation
    list, the call returns the entry with every annotation formatted. *)
Theorem annotations_default_to_none :
  (forall annotation name,
      In name ["type"; "text"; "start_index"; "end_index"] ->
      hasattr annotation name = false ->
      dict_get (format_annotation annotation) name = Some PyNone) /\
  (forall annotation,
      hasattr annotation "url_citation" = false \/
      lookup_attr annotation "url_citation" = Some PyNone ->
      dict_get (format_annotation annotation) "url_citation" = Some PyNone) /\
  (forall annotation citation,
      lookup_attr annotation "url_citation" = Some citation ->
      truthy citation = true ->
      exists url title,
        dict_get (format_annotation annotation) "url_citation" =
          Some (PyDict [("url", url); ("title", title)]) /\
        (hasattr citation "url" = false -> url = PyNone) /\
        (hasattr citation "title" = false -> title = PyNone)) /\
  (forall self w mr a t r msgs m text v anns,
      run_reached self w a t r ->
      run_status r <> "failed" ->
      on_list_messages w (thread_id t) = Ok msgs ->
      last_assistant msgs = Some m ->
      lookup_attr m "text" = Some text ->
      lookup_attr text "value" = Some v ->
      lookup_attr text "annotations" = Some (PyList anns) ->
      on_exit w None = Ok tt ->
      fst (search self w mr) = Ok [text_entry v (map format_annotation anns)]).
Proof.
  split; [|split; [|split]].
  - intros annotation name Hname Hmissing.
    unfold format_annotation.
    destruct Hname as [<-|[<-|[<-|[<-|[]]]]];
      rewrite (getattr_missing _ _ PyNone Hmissing); reflexivity.
  - intros annotation H. unfold format_annotation.
    assert (Hg : getattr annotation "url_citation" PyNone = PyNone).
    { destruct H as [H|H].
      - apply getattr_missing. exact H.
      - unfold getattr. rewrite H. reflexivity. }
    rewrite Hg. reflexivity.
  - intros annotation citation Hc Htruthy.
    exists (getattr citation "url" PyNone), (getattr citation "title" PyNone).
    split; [|split].
    + unfold format_annotation.
      assert (Hg : getattr annotation "url_citation" PyNone = citation)
        by (unfold getattr; rewrite Hc; reflexivity).
      rewrite Hg, Htruthy. reflexivity.
    + apply getattr_missing.
    + apply getattr_missing.
  - intros self w mr a t r msgs m text v anns
      Hrun Hstatus Hlist Hsel Htext Hvalue Hanns Hexit.
    apply String.eqb_neq in Hstatus.
    pose proof (assistant_is_truthy m (last_assistant_is_assistant msgs m Hsel)) as Htruthy.
    assert (Hmt : message_text (last_assistant msgs) = Some (text, v)).
    { rewrite Hsel. unfold message_text. rewrite Htruthy, Htext, Hvalue. reflexivity. }
    assert (Hit : iter (getattr text "annotations" (PyList [])) = Some anns).
    { unfold getattr. rewrite Hanns. reflexivity. }
    reach Hrun. follow Hstatus. follow Hlist. follow Hmt. follow Hit.
    destruct (on_delete_agent w (agent_id a)) as [[]|e];
      cbn [bind fst snd app]; rewrite Hexit; reflexivity.
Qed.

Lemma annotations_default_to_none_witness :
  dict_get (format_annotation bare_annotation) "text" = Some PyNone /\
  dict_get (format_annotation bare_annotation) "url_citation" = Some PyNone /\
  (exists url title,
      dict_get (format_annotation sample_citation) "url_citation" =
        Some (PyDict [("url", url); ("title", title)]) /\
      (hasattr (getattr sample_citation "url_citation" PyNone) "url" = false ->
       url = PyNone) /\
      (hasattr (getattr sample_citation "url_citation" PyNone) "title" = false ->
       title = PyNone)) /\
  fst (search (sample_retriever DomNone) healthy_remote default_max_results) =
    Ok [text_entry (PyStr "Cats are mammals.")
          (map format_annotation [sample_citation; bare_annotation])].
Proof.
  destruct annotations_default_to_none as (Hfield & Hnone & Hcitation & Hsearch).
  split; [|split; [|split]].
  - apply Hfield.
    + simpl. tauto.
    + reflexivity.
  - apply Hnone. left. reflexivity.
  - apply (Hcitation sample_citation
             (PyObj "MessageTextUrlCitationDetails" [("url", PyStr "https://a.com/cats")])).
    + reflexivity.
    + reflexivity.
  - apply (Hsearch (sample_retriever DomNone) healthy_remote default_max_results
             (MkAgent "asst_1") (MkThread "thread_1") (MkRun "completed" "rate limit")
             sample_thread assistant_message
             (PyObj "MessageText"
                [("value", PyStr "Cats are mammals.");
                 ("annotations", PyList [sample_citation; bare_annotation])])).
    + unfold run_reached. repeat split; reflexivity.
    + discriminate.
    + reflexivity.
    + reflexivity.
    + reflexivity.
    + reflexivity.
    + reflexivity.
    + reflexivity.
Defined.

(* ================================================================== *)
(** ** The protocol of one call *)
(* ================================================================== *)

(** X1. The requests of a call follow the order of the source: enter,
    create agent, create thread, send message, run, list messages,
    delete agent, exit.  None is sent twice and none out of order. *)
Theorem requests_follow_the_protocol :
  forall self w mr,
    ascending (map rank (sent_requests (snd (search self w mr)))) = true.
Proof.
  intros self w mr. run_search; reflexivity.
Qed.

(** X2. A client that was entered is left: the exit is the last request
    of the call, however the body ended.  When entering raises, nothing
    else is requested. *)
Theorem entered_client_is_left :
  forall self w mr,
    (on_enter w = Ok tt ->
     exists rs, sent_requests (snd (search self w mr)) = (ClientEnter :: rs ++ [ClientExit])%list) /\
    (forall e, on_enter w = Exc e ->
     sent_requests (snd (search self w mr)) = [ClientEnter]).
Proof.
  intros self w mr. split.
  - intros Henter. unfold_search. rewrite Henter. cbn [bind fst snd app].
    repeat (answer; cbn [bind fst snd app]); cbn [sent_requests app];
      match goal with
      | |- exists rs, ClientEnter :: ?l = _ =>
          first [ exists [] ; reflexivity
                | exists (removelast l); reflexivity ]
      end.
  - intros e Henter. unfold_search. rewrite Henter. reflexivity.
Qed.

Lemma entered_client_is_left_witness :
  (exists rs,
      sent_requests (snd (search (sample_retriever DomNone) failed_listing_remote
                            default_max_results)) =
        (ClientEnter :: rs ++ [ClientExit])%list) /\
  sent_requests (snd (search (sample_retriever DomNone) closed_remote
                        default_max_results)) = [ClientEnter].
Proof.
  split.
  - apply (proj1 (entered_client_is_left (sample_retriever DomNone)
                    failed_listing_remote default_max_results)).
    reflexivity.
  - apply (proj2 (entered_client_is_left (sample_retriever DomNone)
                    closed_remote default_max_results) sample_error).
    reflexivity.
Defined.

(** X3. Every request names what this call created: the message, the
    run and the listing go to the thread that [threads.create]
    returned, and the run and the deletion name the agent that
    [create_agent] returned. *)
Theorem requests_name_what_was_created :
  forall self w mr,
    (forall th role content,
        In (Sent (CreateMessage th role content)) (snd (search self w mr)) ->
        exists t, on_create_thread w = Ok t /\ th = thread_id t) /\
    (forall th ag,
        In (Sent (CreateAndProcessRun th ag)) (snd (search self w mr)) ->
        exists a t,
          on_create_agent w (agent_settings self) = Ok a /\
          on_create_thread w = Ok t /\
          th = thread_id t /\ ag = agent_id a) /\
    (forall th,
        In (Sent (ListMessages th)) (snd (search self w mr)) ->
        exists t, on_create_thread w = Ok t /\ th = thread_id t) /\
    (forall ag,
        In (Sent (DeleteAgent ag)) (snd (search self w mr)) ->
        exists a, on_create_agent w (agent_settings self) = Ok a /\ ag = agent_id a).
Proof.
  intros self w mr. split; [|split; [|split]].
  - intros th role content. run_search; cbn [snd]; intros H; members.
    all: eexists; split; reflexivity.
  - intros th ag. run_search; cbn [snd]; intros H; members.
    all: eexists; eexists; repeat split; reflexivity.
  - intros th. run_search; cbn [snd]; intros H; members.
    all: eexists; split; reflexivity.
  - intros ag. run_search; cbn [snd]; intros H; members.
    all: eexists; split; reflexivity.
Qed.

Lemma requests_name_what_was_created_witness :
  (exists t, on_create_thread healthy_remote = Ok t /\ "thread_1" = thread_id t) /\
  (exists a t,
      on_create_agent healthy_remote (agent_settings (sample_retriever DomNone)) = Ok a /\
      on_create_thread healthy_remote = Ok t /\
      "thread_1" = thread_id t /\ "asst_1" = agent_id a) /\
  (exists t, on_create_thread healthy_remote = Ok t /\ "thread_1" = thread_id t) /\
  (exists a,
      on_create_agent healthy_remote (agent_settings (sample_retriever DomNone)) = Ok a /\
      "asst_1" = agent_id a).
Proof.
  destruct (requests_name_what_was_created (sample_retriever DomNone) healthy_remote
              default_max_results) as (Hmessage & Hrun & Hlist & Hdelete).
  split; [|split; [|split]].
  - apply (Hmessage "thread_1" "user" "cats"). vm_compute. tauto.
  - apply (Hrun "thread_1" "asst_1"). vm_compute. tauto.
  - apply (Hlist "thread_1"). vm_compute. tauto.
  - apply (Hdelete "asst_1"). vm_compute. tauto.
Defined.

(** X4. The agent is created with the same settings in every call:
    model, name, instructions and preview header are constants and the
    tool is the retriever's Bing tool, whatever the query is. *)
Theorem agent_settings_are_fixed :
  forall self w mr cfg,
    In (Sent (CreateAgent cfg)) (snd (search self w mr)) ->
    cfg_model cfg = "gpt-4.1-mini" /\
    cfg_name cfg = "gpt-researcher-bing-agent" /\
    cfg_instructions cfg = "You are a helpful agent for Bing search." /\
    cfg_tools cfg = bing_tool self /\
    cfg_headers cfg = [("x-ms-enable-preview", "true")].
Proof.
  intros self w mr cfg. run_search; cbn [snd]; intros H; members;
    repeat split; reflexivity.
Qed.

Lemma agent_settings_are_fixed_witness :
  cfg_model (agent_settings (sample_retriever (DomStr "a.com"))) = "gpt-4.1-mini" /\
  cfg_name (agent_settings (sample_retriever (DomStr "a.com"))) = "gpt-researcher-bing-agent" /\
  cfg_instructions (agent_settings (sample_retriever (DomStr "a.com"))) =
    "You are a helpful agent for Bing search." /\
  cfg_tools (agent_settings (sample_retriever (DomStr "a.com"))) = MkTool "bing-connection" /\
  cfg_headers (agent_settings (sample_retriever (DomStr "a.com"))) =
    [("x-ms-enable-preview", "true")].
Proof.
  apply (agent_settings_are_fixed (sample_retriever (DomStr "a.com")) healthy_remote
           default_max_results).
  vm_compute. tauto.
Defined.

(* ================================================================== *)
(** ** After the run *)
(* ================================================================== *)

(** X5. Only the status "failed" stops a call after the run: the error
    line is logged and the messages are not listed.  With any other
    status (completed, cancelled, expired, ...) the messages of the
    thread are listed. *)
Theorem messages_listed_unless_run_failed :
  forall self w mr a t r,
    run_reached self w a t r ->
    (run_status r = "failed" ->
     In (Log Error ("Run failed: " ++ run_last_error r)) (snd (search self w mr)) /\
     forall th, ~ In (Sent (ListMessages th)) (snd (search self w mr))) /\
    (run_status r <> "failed" ->
     In (Sent (ListMessages (thread_id t))) (snd (search self w mr))).
Proof.
  intros self w mr a t r Hrun. split.
  - intros Hstatus. reach Hrun. rewrite Hstatus.
    cbn [String.eqb Ascii.eqb Bool.eqb]. cbn [bind fst snd app].
    destruct (on_exit w None) as [[]|e]; cbn [bind fst snd app]; split;
      try (simpl; tauto);
      intros th H; members.
  - intros Hstatus. apply String.eqb_neq in Hstatus.
    reach Hrun. follow Hstatus.
    repeat (answer; cbn [bind fst snd app]); simpl; tauto.
Qed.

Lemma messages_listed_unless_run_failed_witness :
  (In (Log Error "Run failed: rate limit")
      (snd (search (sample_retriever DomNone) failed_run_remote default_max_results)) /\
   forall th,
     ~ In (Sent (ListMessages th))
         (snd (search (sample_retriever DomNone) failed_run_remote default_max_results))) /\
  In (Sent (ListMessages "thread_1"))
     (snd (search (sample_retriever DomNone)
             (sample_remote "cancelled" (Ok sample_thread) (Ok tt) (Ok tt))
             default_max_results)).
Proof.
  split.
  - apply (proj1 (messages_listed_unless_run_failed (sample_retriever DomNone)
             failed_run_remote default_max_results
             (MkAgent "asst_1") (MkThread "thread_1") (MkRun "failed" "rate limit")
             (conj eq_refl (conj eq_refl (conj eq_refl (conj eq_refl eq_refl)))))).
    reflexivity.
  - apply (proj2 (messages_listed_unless_run_failed (sample_retriever DomNone)
             (sample_remote "cancelled" (Ok sample_thread) (Ok tt) (Ok tt))
             default_max_results
             (MkAgent "asst_1") (MkThread "thread_1") (MkRun "cancelled" "rate limit")
             (conj eq_refl (conj eq_refl (conj eq_refl (conj eq_refl eq_refl)))))).
    discriminate.
Defined.

(** X6. When the response is built without an exception (the run did
    not fail and the messages were listed), the deletion of the created
    agent is requested exactly once, whether or not a message was
    selected. *)
Theorem deletion_requested_once_response_built :
  forall self w mr a t r msgs,
    run_reached self w a t r ->
    run_status r <> "failed" ->
    on_list_messages w (thread_id t) = Ok msgs ->
    (forall e, ~ In (TypeErr e) (snd (search self w mr))) ->
    count_deletions (agent_id a) (snd (search self w mr)) = 1%nat /\
    In (Sent (DeleteAgent (agent_id a))) (snd (search self w mr)).
Proof.
  intros self w mr a t r msgs Hrun Hstatus Hlist.
  apply String.eqb_neq in Hstatus.
  reach Hrun. follow Hstatus. follow Hlist.
  repeat (answer; cbn [bind fst snd app]); intros Hclean;
    try (exfalso; eapply Hclean; simpl; tauto);
    cbn [count_deletions]; rewrite String.eqb_refl; split;
      try reflexivity; simpl; tauto.
Qed.

Lemma deletion_requested_once_response_built_witness :
  count_deletions "asst_1"
    (snd (search (sample_retriever DomNone) failed_deletion_remote default_max_results))
    = 1%nat /\
  In (Sent (DeleteAgent "asst_1"))
    (snd (search (sample_retriever DomNone) failed_deletion_remote default_max_results)).
Proof.
  apply (deletion_requested_once_response_built (sample_retriever DomNone)
           failed_deletion_remote default_max_results
           (MkAgent "asst_1") (MkThread "thread_1") (MkRun "completed" "rate limit")
           sample_thread).
  - unfold run_reached. repeat split; reflexivity.
  - discriminate.
  - reflexivity.
  - intros e H. vm_compute in H.
    repeat (destruct H as [H|H]; [discriminate H|]). exact H.
Defined.

(* ================================================================== *)
(** ** Edge cases of the response *)
(* ================================================================== *)

(** What [search] does once the messages are listed is decided by the
    selected message alone. *)
Lemma search_after_selection self w mr msgs :
  search self (with_messages w msgs) mr =
  search self (with_messages w (match last_assistant msgs with
                                | Some m => [m]
                                | None => []
                                end)) mr.
Proof.
  apply search_depends_on_selection.
  destruct (last_assistant msgs) as [m|] eqn:Hsel; [|reflexivity].
  symmetry. apply (last_assistant_found [] m []).
  - apply (last_assistant_is_assistant msgs). exact Hsel.
  - intros x [].
Qed.

(** X7. There is no fallback to an older message.  When the last
    assistant message has no [text], or a [text] without [value], the
    call returns the empty list, even if earlier assistant messages
    carry a text. *)
Theorem textless_last_message_gives_empty :
  forall self w mr pre m post,
    is_assistant m = true ->
    (forall x, In x post -> is_assistant x = false) ->
    hasattr m "text" = false \/
    (exists text, lookup_attr m "text" = Some text /\ hasattr text "value" = false) ->
    fst (search self (with_messages w (pre ++ m :: post)) mr) = Ok [].
Proof.
  intros self w mr pre m post Hm Hpost Htext.
  rewrite search_after_selection, (last_assistant_found pre m post Hm Hpost).
  assert (Hmt : message_text (last_assistant [m]) = None).
  { assert (Hone : last_assistant [m] = Some m)
      by (apply (last_assistant_found [] m []); [exact Hm | intros x []]).
    rewrite Hone. unfold message_text. destruct (truthy m); [|reflexivity].
    destruct Htext as [H|[text [Ht Hv]]].
    - unfold hasattr in H. destruct (lookup_attr m "text"); [discriminate|reflexivity].
    - rewrite Ht. unfold hasattr in Hv.
      destruct (lookup_attr text "value"); [discriminate|reflexivity]. }
  unfold_search.
  cbn [with_messages on_enter on_create_agent on_create_thread on_create_message
       on_create_and_process on_list_messages on_delete_agent on_exit].
  rewrite Hmt.
  repeat (answer; cbn [bind fst snd app]); reflexivity.
Qed.

Lemma textless_last_message_gives_empty_witness :
  fst (search (sample_retriever DomNone)
         (with_messages healthy_remote
            [assistant_message; textless_assistant_message; user_message])
         default_max_results) = Ok [] /\
  fst (search (sample_retriever DomNone)
         (with_messages healthy_remote [assistant_message; valueless_assistant_message])
         default_max_results) = Ok [].
Proof.
  split.
  - apply (textless_last_message_gives_empty (sample_retriever DomNone) healthy_remote
             default_max_results [assistant_message] textless_assistant_message
             [user_message]).
    + reflexivity.
    + intros x [<-|[]]. reflexivity.
    + left. reflexivity.
  - apply (textless_last_message_gives_empty (sample_retriever DomNone) healthy_remote
             default_max_results [assistant_message] valueless_assistant_message []).
    + reflexivity.
    + intros x [].
    + right. exists (PyObj "MessageText" []). split; reflexivity.
Defined.

(** X8. A text without an [annotations] attribute is returned with an
    empty annotation list: the default of the [getattr]. *)
Theorem missing_annotations_give_empty_list :
  forall self w mr a t r msgs m text v,
    run_reached self w a t r ->
    run_status r <> "failed" ->
    on_list_messages w (thread_id t) = Ok msgs ->
    last_assistant msgs = Some m ->
    lookup_attr m "text" = Some text ->
    lookup_attr text "value" = Some v ->
    hasattr text "annotations" = false ->
    on_exit w None = Ok tt ->
    fst (search self w mr) = Ok [text_entry v []].
Proof.
  intros self w mr a t r msgs m text v
    Hrun Hstatus Hlist Hsel Htext Hvalue Hanns Hexit.
  apply String.eqb_neq in Hstatus.
  pose proof (assistant_is_truthy m (last_assistant_is_assistant msgs m Hsel)) as Htruthy.
  assert (Hmt : message_text (last_assistant msgs) = Some (text, v)).
  { rewrite Hsel. unfold message_text. rewrite Htruthy, Htext, Hvalue. reflexivity. }
  assert (Hit : iter (getattr text "annotations" (PyList [])) = Some []).
  { rewrite (getattr_missing _ _ _ Hanns). reflexivity. }
  reach Hrun. follow Hstatus. follow Hlist. follow Hmt. follow Hit.
  destruct (on_delete_agent w (agent_id a)) as [[]|e];
    cbn [bind fst snd app]; rewrite Hexit; reflexivity.
Qed.

Lemma missing_annotations_give_empty_list_witness :
  fst (search (sample_retriever DomNone)
         (sample_remote "completed" (Ok [older_assistant_message]) (Ok tt) (Ok tt))
         default_max_results) = Ok [text_entry (PyStr "Thinking.") []].
Proof.
  apply (missing_annotations_give_empty_list (sample_retriever DomNone)
           (sample_remote "completed" (Ok [older_assistant_message]) (Ok tt) (Ok tt))
           default_max_results
           (MkAgent "asst_1") (MkThread "thread_1") (MkRun "completed" "rate limit")
           [older_assistant_message] older_assistant_message
           (PyObj "MessageText" [("value", PyStr "Thinking.")])).
  - unfold run_reached. repeat split; reflexivity.
  - discriminate.
  - reflexivity.
  - reflexivity.
  - reflexivity.
  - reflexivity.
  - reflexivity.
  - reflexivity.
Defined.

(** X9. The default only covers a missing attribute.  When
    [annotations] is there but cannot be iterated (None, a number, an
    instance), the loop raises TypeError, the text is lost and the call
    returns the empty list; the error line names the TypeError unless
    leaving the client raises in turn. *)
Theorem uniterable_annotations_give_empty :
  forall self w mr a t r msgs m text v annotations,
    run_reached self w a t r ->
    run_status r <> "failed" ->
    on_list_messages w (thread_id t) = Ok msgs ->
    last_assistant msgs = Some m ->
    lookup_attr m "text" = Some text ->
    lookup_attr text "value" = Some v ->
    lookup_attr text "annotations" = Some annotations ->
    iter annotations = None ->
    fst (search self w mr) = Ok [] /\
    In (TypeErr (not_iterable annotations)) (snd (search self w mr)) /\
    (on_exit w (Some (not_iterable annotations)) = Ok tt ->
     In (search_failed_line (not_iterable annotations)) (snd (search self w mr))).
Proof.
  intros self w mr a t r msgs m text v annotations
    Hrun Hstatus Hlist Hsel Htext Hvalue Hanns Hiter.
  apply String.eqb_neq in Hstatus.
  pose proof (assistant_is_truthy m (last_assistant_is_assistant msgs m Hsel)) as Htruthy.
  assert (Hmt : message_text (last_assistant msgs) = Some (text, v)).
  { rewrite Hsel. unfold message_text. rewrite Htruthy, Htext, Hvalue. reflexivity. }
  assert (Hget : getattr text "annotations" (PyList []) = annotations).
  { unfold getattr. rewrite Hanns. reflexivity. }
  reach Hrun. follow Hstatus. follow Hlist. follow Hmt.
  rewrite Hget. follow Hiter.
  destruct (on_exit w (Some (not_iterable annotations))) as [[]|e] eqn:Hexit;
    cbn [fst snd]; unfold search_failed_line;
    (split; [reflexivity | split; [simpl; tauto |]]).
  - intros _. simpl. tauto.
  - intros H. discriminate H.
Qed.

Lemma uniterable_annotations_give_empty_witness :
  let out := search (sample_retriever DomNone)
               (sample_remote "completed" (Ok [unannotated_assistant_message])
                  (Ok tt) (Ok tt))
               default_max_results in
  fst out = Ok [] /\
  In (TypeErr (MkExn "TypeError" "'NoneType' object is not iterable")) (snd out) /\
  In (Log Error "Azure Bing Search failed: 'NoneType' object is not iterable") (snd out).
Proof.
  intros out.
  destruct (uniterable_annotations_give_empty (sample_retriever DomNone)
              (sample_remote "completed" (Ok [unannotated_assistant_message])
                 (Ok tt) (Ok tt))
              default_max_results
              (MkAgent "asst_1") (MkThread "thread_1") (MkRun "completed" "rate limit")
              [unannotated_assistant_message] unannotated_assistant_message
              (PyObj "MessageText"
                 [("value", PyStr "Cats purr."); ("annotations", PyNone)])
              (PyStr "Cats purr.") PyNone)
    as (Hempty & Hraised & Hlogged).
  - unfold run_reached. repeat split; reflexivity.
  - discriminate.
  - reflexivity.
  - reflexivity.
  - reflexivity.
  - reflexivity.
  - reflexivity.
  - reflexivity.
  - split; [exact Hempty | split; [exact Hraised | apply Hlogged; reflexivity]].
Defined.

Lemma format_annotation_shaped annotation :
  annotation_shaped (format_annotation annotation).
Proof.
  unfold annotation_shaped, format_annotation. split; [reflexivity|].
  destruct (truthy (getattr annotation "url_citation" PyNone)).
  - right. eexists. split; reflexivity.
  - left. reflexivity.
Qed.

(** X10. Whatever the remote side answers, every entry of the returned
    list has the output shape: type "text" and a text dict holding the
    value and a list of annotations, each with exactly the keys type,
    text, start_index, end_index and url_citation, the last one None or
    a dict of url and title. *)
Theorem returned_entries_have_the_output_shape :
  forall self w mr,
    exists l, fst (search self w mr) = Ok l /\ Forall entry_shaped l.
Proof.
  intros self w mr. run_search; eexists; (split; [reflexivity|]);
    try (apply Forall_nil).
  all: apply Forall_cons; [|apply Forall_nil].
  all: unfold entry_shaped, text_entry.
  all: split; [reflexivity|]; split; [reflexivity|].
  all: eexists; eexists.
  all: split; [reflexivity|]; split; [reflexivity|]; split; [reflexivity|].
  all: apply Forall_forall; intros x Hx; apply in_map_iff in Hx;
    destruct Hx as [y [<- _]]; apply format_annotation_shaped.
Qed.

(* ================================================================== *)
(** ** Construction and the query, in general *)
(* ================================================================== *)

(** X11. For any non-empty list of domains the transmitted text is the
    query, a space, and the domains each prefixed with "site:" and
    joined by " OR "; for a single domain given as a non-empty string
    it is the query followed by " site:" and the domain.  The message
    is always sent in the user role. *)
Theorem transmitted_query_for_any_domains :
  (forall environ sdk q d ds self w mr thread role content,
      init environ sdk q (DomList (d :: ds)) = Ok self ->
      In (Sent (CreateMessage thread role content)) (snd (search self w mr)) ->
      role = "user" /\
      content =
        q ++ " " ++ String.concat " OR " (map (fun x => "site:" ++ x) (d :: ds))) /\
  (forall environ sdk q d self w mr thread role content,
      d <> "" ->
      init environ sdk q (DomStr d) = Ok self ->
      In (Sent (CreateMessage thread role content)) (snd (search self w mr)) ->
      role = "user" /\ content = q ++ " site:" ++ d).
Proof.
  split.
  - intros environ sdk q d ds self w mr thread role content Hinit Hsent.
    apply init_query_domains in Hinit. destruct Hinit as [Hq Hd]. simpl in Hd.
    apply sent_message_is_built_query in Hsent. destruct Hsent as [-> ->].
    split; [reflexivity|].
    rewrite (build_query_list _ _ _ Hd), Hq. reflexivity.
  - intros environ sdk q d self w mr thread role content Hne Hinit Hsent.
    apply init_query_domains in Hinit. destruct Hinit as [Hq Hd].
    apply String.eqb_neq in Hne. simpl in Hd. rewrite Hne in Hd. simpl in Hd.
    apply sent_message_is_built_query in Hsent. destruct Hsent as [-> ->].
    split; [reflexivity|].
    unfold build_query. rewrite Hd. simpl. rewrite Hne, Hq. reflexivity.
Qed.

Lemma transmitted_query_for_any_domains_witness :
  ("user" = "user" /\
   "cats site:a.com OR site:b.org OR site:c.net" =
     "cats" ++ " " ++
       String.concat " OR " (map (fun x => "site:" ++ x) ["a.com"; "b.org"; "c.net"])) /\
  ("user" = "user" /\ "cats site:a.com" = "cats" ++ " site:" ++ "a.com").
Proof.
  split.
  - apply (proj1 transmitted_query_for_any_domains sample_environ sample_sdk "cats"
             "a.com" ["b.org"; "c.net"]
             (sample_retriever (DomList ["a.com"; "b.org"; "c.net"]))
             healthy_remote default_max_results "thread_1").
    + reflexivity.
    + vm_compute. tauto.
  - apply (proj2 transmitted_query_for_any_domains sample_environ sample_sdk "cats"
             "a.com" (sample_retriever (DomStr "a.com"))
             healthy_remote default_max_results "thread_1").
    + discriminate.
    + reflexivity.
    + vm_compute. tauto.
Defined.

(** X12. With both settings present, an exception raised by an SDK
    constructor (the credential, the project client, the Bing tool)
    leaves [__init__] as it is: the first one that raises decides. *)
Theorem init_propagates_constructor_failure :
  forall environ sdk q qd endpoint connection e,
    environ "AI_PROJECT_ENDPOINT" = Some endpoint -> endpoint <> "" ->
    environ "BING_CONNECTION_NAME_ENV" = Some connection -> connection <> "" ->
    new_credential sdk = Exc e \/
    (new_credential sdk = Ok tt /\
     new_project_client sdk endpoint "2025-05-15-preview" = Exc e) \/
    (new_credential sdk = Ok tt /\
     (exists client, new_project_client sdk endpoint "2025-05-15-preview" = Ok client) /\
     new_bing_tool sdk connection = Exc e) ->
    init environ sdk q qd = Exc e.
Proof.
  intros environ sdk q qd endpoint connection e He Hne Hc Hnc Hfail.
  unfold init. rewrite He, Hc.
  rewrite (setting_present _ Hne), (setting_present _ Hnc). simpl.
  destruct Hfail as [H|[[Hcred H]|[Hcred [[client Hclient] H]]]].
  - rewrite H. reflexivity.
  - rewrite Hcred. simpl. rewrite H. reflexivity.
  - rewrite Hcred. simpl. rewrite Hclient. simpl. rewrite H. reflexivity.
Qed.

Lemma init_propagates_constructor_failure_witness :
  init sample_environ broken_sdk "cats" DomNone =
    Exc (MkExn "ValueError" "invalid endpoint").
Proof.
  apply (init_propagates_constructor_failure sample_environ broken_sdk "cats" DomNone
           "https://example.services.ai.azure.com" "bing-connection").
  - reflexivity.
  - discriminate.
  - reflexivity.
  - discriminate.
  - right. left. split; reflexivity.
Defined.

(** X13. A retriever that was constructed holds what it was given: the
    query, the filters (None unless truthy), and the two settings, both
    non-empty and read from the environment; its client was built for
    that endpoint with the pinned API version and its Bing tool for
    that connection. *)
Theorem constructed_retriever_holds_its_settings :
  forall environ sdk q qd self,
    init environ sdk q qd = Ok self ->
    query self = q /\
    query_domains self = (if domains_truthy qd then qd else DomNone) /\
    (query_domains self = DomNone \/ domains_truthy (query_domains self) = true) /\
    environ "AI_PROJECT_ENDPOINT" = Some (project_endpoint self) /\
    project_endpoint self <> "" /\
    environ "BING_CONNECTION_NAME_ENV" = Some (bing_connection_name self) /\
    bing_connection_name self <> "" /\
    new_project_client sdk (project_endpoint self) "2025-05-15-preview" =
      Ok (project_client self) /\
    new_bing_tool sdk (bing_connection_name self) = Ok (bing_tool self).
Proof.
  intros environ sdk q qd self. unfold init.
  destruct (setting_missing (environ "AI_PROJECT_ENDPOINT")) eqn:Hme;
    [intros H; discriminate H|].
  destruct (setting_missing (environ "BING_CONNECTION_NAME_ENV")) eqn:Hmc;
    [intros H; discriminate H|].
  apply setting_missing_false in Hme. destruct Hme as [endpoint [He Hne]].
  apply setting_missing_false in Hmc. destruct Hmc as [connection [Hc Hnc]].
  rewrite He, Hc. simpl.
  destruct (new_credential sdk); simpl; [|intros H; discriminate H].
  destruct (new_project_client sdk endpoint _) as [client|] eqn:Hclient; simpl;
    [|intros H; discriminate H].
  destruct (new_bing_tool sdk connection) as [tool|] eqn:Htool; simpl;
    [|intros H; discriminate H].
  intros H. injection H as <-. simpl.
  repeat split; try assumption.
  destruct (domains_truthy qd) eqn:Ht; [right; exact Ht | left; reflexivity].
Qed.

Lemma constructed_retriever_holds_its_settings_witness :
  query (sample_retriever (DomList [])) = "cats" /\
  project_endpoint (sample_retriever DomNone) <> "" /\
  bing_connection_name (sample_retriever DomNone) <> "".
Proof.
  destruct (constructed_retriever_holds_its_settings sample_environ sample_sdk "cats"
              (DomList []) (sample_retriever DomNone) eq_refl)
    as (Hq & _ & _ & _ & Hne & _ & Hnc & _).
  split; [exact Hq | split; [exact Hne | exact Hnc]].
Defined.
